(** * Duration: the declared surface and a model of the value it describes

    The repository holds the ambient declarations of the [Duration] class
    (a map from unit names to quantities, with configuration and a validity
    flag).  The first part of this development embeds the declaration file
    as data: the types it writes, the conditional type [IfValid] it applies
    to the class parameter, and the result type it gives each member.  The
    second part is a model of the value the declarations describe, and the
    third relates its values to the declared types.  Then come the typing
    of calls, the Duration with quantities that are numbers (for the
    numeric accessors and the arithmetic), and the parsing factories.  The
    properties come last: those of the declarations, those of the model,
    and the agreement of the two. *)

From Stdlib Require Import Ascii String List Bool NArith QArith.
From Stdlib Require Floats.
Import ListNotations.
Open Scope string_scope.

(** ** Part I. The declarations *)

Module Signature.

(** The class parameter [IsValid extends boolean]: the literal types
    [true] (imported as [Valid]) and [false] (imported as [Invalid]), and
    [boolean] itself, when validity is not known statically. *)
Inductive IsValid : Type :=
  | Valid
  | Invalid
  | AnyValidity.

(** The types the declaration file writes in result position. *)
Inductive type : Type :=
  | string_t                      (* string *)
  | number_t                      (* number *)
  | boolean_t                     (* boolean *)
  | null_t                        (* null *)
  | typeof_NaN                    (* typeof NaN *)
  | true_t                        (* true *)
  | false_t                       (* false *)
  | literal (s : string)          (* a string literal type *)
  | DurationObjectUnits_t         (* DurationObjectUnits *)
  | Duration_t (v : IsValid)      (* Duration<v> *)
  | union (a b : type).           (* a | b *)

(** Modelled from the spec: the conditional type [IfValid] is imported from
    "./_util", which is not among the sources.  The file applies it as
    [IfValid<T, E, IsValid>]; the spec's data model ("when invalid, all unit
    accessors return a not-a-number sentinel") fixes that [E] is the type
    selected for an invalid Duration, as in [IfValid<number, typeof NaN,
    IsValid>].  Over [boolean] a conditional type distributes. *)
Definition IfValid (ThenType ElseType : type) (v : IsValid) : type :=
  match v with
  | Valid => ThenType
  | Invalid => ElseType
  | AnyValidity => union ThenType ElseType
  end.

(** The instance members of [class Duration], in declaration order. *)
Inductive member : Type :=
  | locale | numberingSystem
  | toFormat | toHuman | toObject | toISO | toISOTime | toJSON | toString
  | toMillis | valueOf
  | plus | minus | mapUnits
  | get | set | reconfigure | as_
  | normalize | rescale | shiftTo | shiftToAll | negate | removeZeros
  | years | quarters | months | weeks | days | hours | minutes | seconds
  | milliseconds
  | isValid | invalidReason | invalidExplanation
  | equals.

(** The declared result type of each member on a [Duration<v>]; the result
    type [this] of the transforming members is the receiver's own type. *)
Definition returns (m : member) (v : IsValid) : type :=
  match m with
  | locale | numberingSystem => IfValid string_t null_t v
  | toFormat => IfValid string_t (literal "Invalid Duration") v
  | toHuman => string_t
  | toObject => DurationObjectUnits_t
  | toISO | toISOTime | toJSON | toString => IfValid string_t null_t v
  | toMillis | valueOf => IfValid number_t typeof_NaN v
  | plus | minus | mapUnits => Duration_t v
  | get => IfValid number_t typeof_NaN v
  | set | reconfigure => Duration_t v
  | as_ => IfValid number_t typeof_NaN v
  | normalize | rescale | shiftTo | shiftToAll | negate | removeZeros =>
      Duration_t v
  | years | quarters | months | weeks | days | hours | minutes | seconds
  | milliseconds => IfValid number_t typeof_NaN v
  | isValid => IfValid true_t false_t v
  | invalidReason => IfValid null_t string_t v
  | invalidExplanation => IfValid null_t (union string_t null_t) v
  | equals => IfValid boolean_t false_t v
  end.

(** The static members that create a Duration ([isDuration], a type
    predicate, creates none). *)
Inductive factory : Type :=
  | fromMillis | fromObject | fromDurationLike | fromISO | fromISOTime
  | invalid.

(** [DurationMaybeValid], as the file defines it.  [CanBeInvalid] and
    [DefaultValidity] are imported from "./_util", which is not among the
    sources: they are parameters here. *)
Definition DurationMaybeValid (CanBeInvalid : bool) (DefaultValidity : IsValid)
  : type :=
  if CanBeInvalid then union (Duration_t Valid) (Duration_t Invalid)
  else Duration_t DefaultValidity.

Definition creates (CanBeInvalid : bool) (DefaultValidity : IsValid)
    (f : factory) : type :=
  match f with
  | fromMillis | fromObject | fromDurationLike => Duration_t Valid
  | fromISO | fromISOTime => DurationMaybeValid CanBeInvalid DefaultValidity
  | invalid => Duration_t Invalid
  end.

(** The unit accessors and the formatting accessors, as the data model
    groups them. *)
Definition unit_accessors : list member :=
  [years; quarters; months; weeks; days; hours; minutes; seconds;
   milliseconds; get; as_; toMillis].


(** The members that produce a Duration out of the receiver. *)
Definition transforming : list member :=
  [plus; minus; set; reconfigure; mapUnits; shiftTo; shiftToAll; normalize;
   rescale; negate; removeZeros].

Definition type_eqb_validity (a b : IsValid) : bool :=
  match a, b with
  | Valid, Valid | Invalid, Invalid | AnyValidity, AnyValidity => true
  | _, _ => false
  end.

(** [admits t v]: a value of type [t] may be a Duration of validity [v]. *)
Fixpoint admits (t : type) (v : IsValid) : bool :=
  match t with
  | Duration_t w => type_eqb_validity w v || type_eqb_validity w AnyValidity
  | union a b => admits a v || admits b v
  | _ => false
  end.

(** [nullable t]: [null] is a value of type [t]. *)
Fixpoint nullable (t : type) : bool :=
  match t with
  | null_t => true
  | union a b => nullable a || nullable b
  | _ => false
  end.

End Signature.

(** ** Part II. A model of the Duration value

    The declarations give no method bodies: the library they describe is
    not part of the repository.  What follows is a model of the value and
    of the operations the properties below need, written from the spec and
    from the examples in the declaration file's doc comments.  Quantities
    are stored, read back, negated and compared here, which is exact; what
    is computed with them as numbers is in [Numeric] below. *)

Module Model.

(** The nine unit names of [DurationObjectUnits], largest first. *)
Inductive unit : Type :=
  | Years | Quarters | Months | Weeks | Days | Hours | Minutes | Seconds
  | Milliseconds.

Definition orderedUnits : list unit :=
  [Years; Quarters; Months; Weeks; Days; Hours; Minutes; Seconds;
   Milliseconds].

(** [DurationUnit = keyof DurationLikeObject]: each unit name in its plural
    form ("years") and in its singular form ("year"). *)
Inductive DurationUnit : Type :=
  | Plural (u : unit)
  | Singular (u : unit).

Definition normalizeUnit (k : DurationUnit) : unit :=
  match k with
  | Plural u | Singular u => u
  end.

(** [interface DurationObjectUnits]: every entry is optional.  A quantity
    is a rational; the not-a-number sentinel is not a quantity (see
    [number] below). *)
Record DurationObjectUnits : Type := mkUnits {
  years : option Q;
  quarters : option Q;
  months : option Q;
  weeks : option Q;
  days : option Q;
  hours : option Q;
  minutes : option Q;
  seconds : option Q;
  milliseconds : option Q
}.

Definition noUnits : DurationObjectUnits :=
  mkUnits None None None None None None None None None.

(** [o[u]] *)
Definition lookup (o : DurationObjectUnits) (u : unit) : option Q :=
  match u with
  | Years => years o
  | Quarters => quarters o
  | Months => months o
  | Weeks => weeks o
  | Days => days o
  | Hours => hours o
  | Minutes => minutes o
  | Seconds => seconds o
  | Milliseconds => milliseconds o
  end.

(** [o[u] = x] *)
Definition update (o : DurationObjectUnits) (u : unit) (x : option Q)
  : DurationObjectUnits :=
  match u with
  | Years =>
      mkUnits x (quarters o) (months o) (weeks o) (days o) (hours o)
        (minutes o) (seconds o) (milliseconds o)
  | Quarters =>
      mkUnits (years o) x (months o) (weeks o) (days o) (hours o)
        (minutes o) (seconds o) (milliseconds o)
  | Months =>
      mkUnits (years o) (quarters o) x (weeks o) (days o) (hours o)
        (minutes o) (seconds o) (milliseconds o)
  | Weeks =>
      mkUnits (years o) (quarters o) (months o) x (days o) (hours o)
        (minutes o) (seconds o) (milliseconds o)
  | Days =>
      mkUnits (years o) (quarters o) (months o) (weeks o) x (hours o)
        (minutes o) (seconds o) (milliseconds o)
  | Hours =>
      mkUnits (years o) (quarters o) (months o) (weeks o) (days o) x
        (minutes o) (seconds o) (milliseconds o)
  | Minutes =>
      mkUnits (years o) (quarters o) (months o) (weeks o) (days o) (hours o)
        x (seconds o) (milliseconds o)
  | Seconds =>
      mkUnits (years o) (quarters o) (months o) (weeks o) (days o) (hours o)
        (minutes o) x (milliseconds o)
  | Milliseconds =>
      mkUnits (years o) (quarters o) (months o) (weeks o) (days o) (hours o)
        (minutes o) (seconds o) x
  end.

(** The object with entry [f u] at every unit [u]. *)
Definition tabulate (f : unit -> option Q) : DurationObjectUnits :=
  mkUnits (f Years) (f Quarters) (f Months) (f Weeks) (f Days) (f Hours)
    (f Minutes) (f Seconds) (f Milliseconds).

(** The stored quantity at a unit: an absent entry counts as zero. *)
Definition quantity (o : DurationObjectUnits) (u : unit) : Q :=
  match lookup o u with
  | Some q => q
  | None => 0
  end.

(** [interface DurationLikeObject]: an object literal whose keys are
    [DurationUnit]s, as the list of its properties in order. *)
Definition DurationLikeObject : Type := list (DurationUnit * Q).

(** Every key is brought to its plural unit name; a later property
    overwrites an earlier one of the same unit. *)
Definition normalizeObject (obj : DurationLikeObject) : DurationObjectUnits :=
  fold_left (fun acc kv => update acc (normalizeUnit (fst kv)) (Some (snd kv)))
    obj noUnits.


Inductive ConversionAccuracy : Type := casual | longterm.

(** [interface DurationOptions] *)
Module DurationOptions.

Record t : Type := make {
  locale : option string;
  numberingSystem : option string;
  conversionAccuracy : option ConversionAccuracy
}.

(** [{}]: no option given. *)
Definition none : t := make None None None.

End DurationOptions.

(** The configuration a Duration carries. *)
Record Config : Type := mkConfig {
  conf_locale : string;
  conf_numberingSystem : option string;
  conf_conversionAccuracy : ConversionAccuracy
}.

(** Why a Duration is invalid: a reason and an optional explanation. *)
Record Invalid : Type := mkInvalid {
  reason : string;
  explanation : option string
}.

(** Modelled from the spec: the state of a Duration, which the declarations
    keep private.  "Duration: immutable value with a mapping from unit name
    to a numeric quantity (entries optional; absent = zero), configuration,
    a validity flag and, when invalid, a reason code and free-text
    explanation." *)
Record Duration : Type := mkDuration {
  values : DurationObjectUnits;
  config : Config;
  invalidity : option Invalid
}.

(** The result of a numeric accessor: a quantity or the NaN sentinel. *)
Inductive number : Type :=
  | Num (q : Q)
  | NaN.

(** The defaults the doc comments of [fromObject] give: locale 'en-US',
    conversion accuracy 'casual'. *)
Definition configOf (opts : DurationOptions.t) : Config :=
  mkConfig
    (match DurationOptions.locale opts with Some l => l | None => "en-US" end)
    (DurationOptions.numberingSystem opts)
    (match DurationOptions.conversionAccuracy opts with
     | Some a => a
     | None => casual
     end).

(** Modelled from the spec: [Duration.invalid(reason, explanation)], "explicitly
    marked invalid". *)
Definition invalid (why : string) (explain : option string) : Duration :=
  mkDuration noUnits (configOf DurationOptions.none)
    (Some (mkInvalid why explain)).

(** Modelled from the spec: [Duration.fromObject(obj, opts)], construction
    "from a unit mapping"; the declaration types its result
    [Duration<Valid>]. *)
Definition fromObject (obj : DurationLikeObject) (opts : DurationOptions.t)
  : Duration :=
  mkDuration (normalizeObject obj) (configOf opts) None.

(** Modelled from the spec: [Duration.fromMillis(count, opts)], construction
    "from a millisecond count". *)
Definition fromMillis (count : Q) (opts : DurationOptions.t) : Duration :=
  fromObject [(Plural Milliseconds, count)] opts.

(** Modelled from the spec: the getters [isValid], [invalidReason] and
    [invalidExplanation] read "a validity flag and, when invalid, a reason
    code and free-text explanation"; on a valid Duration the last two are
    [null], as their declared types say. *)
Definition isValid (d : Duration) : bool :=
  match invalidity d with
  | None => true
  | Some _ => false
  end.

Definition invalidReason (d : Duration) : option string :=
  option_map reason (invalidity d).

Definition invalidExplanation (d : Duration) : option string :=
  match invalidity d with
  | Some i => explanation i
  | None => None
  end.

(** The quantity a Duration stores at a unit. *)
Definition stored (d : Duration) (u : unit) : Q := quantity (values d) u.

(** Modelled from the spec: [get(unit)]; "when invalid, all unit accessors
    return a not-a-number sentinel", and an absent entry reads as zero. *)
Definition get (d : Duration) (k : DurationUnit) : number :=
  if isValid d then Num (stored d (normalizeUnit k)) else NaN.

(** Modelled from the spec: [toObject()], the "plain-object" form: the unit
    mapping of the Duration. *)
Definition toObject (d : Duration) : DurationObjectUnits :=
  if isValid d then values d else noUnits.

(** An operation on an invalid Duration "returns a new invalid duration
    (reason propagated, not re-derived)". *)
Definition propagate (i : Invalid) : Duration :=
  invalid (reason i) (explanation i).

(** Modelled from the spec: [negate()]; the doc comment's example turns
    [{ hours: 1, seconds: 30 }] into [{ hours: -1, seconds: -30 }]. *)
Definition negate (this : Duration) : Duration :=
  match invalidity this with
  | Some i => propagate i
  | None =>
      mkDuration (tabulate (fun u => option_map Qopp (lookup (values this) u)))
        (config this) None
  end.

(** Modelled from the spec: [equals(other)]; "two durations are equal iff
    every unit's stored quantity matches exactly (no cross-unit
    normalization during comparison)".  The declared result type
    [IfValid<boolean, false, IsValid>] makes it [false] on an invalid
    receiver; the model answers [false] for an invalid argument too. *)
Definition equals (this other : Duration) : bool :=
  if negb (isValid this) || negb (isValid other) then false
  else forallb (fun u => Qeq_bool (stored this u) (stored other u))
         orderedUnits.

End Model.

(** ** Part III. Values against declared types *)

Module Conformance.

Import Signature.

(** The values the modelled members return. *)
Inductive value : Type :=
  | VNumber (n : Model.number)
  | VString (s : string)
  | VNull
  | VBoolean (b : bool)
  | VUnits (o : Model.DurationObjectUnits)
  | VDuration (d : Model.Duration).

(** The class parameter at which a Duration value is typed. *)
Definition validity (d : Model.Duration) : IsValid :=
  if Model.isValid d then Valid else Invalid.

Definition hasValidity (d : Model.Duration) (v : IsValid) : bool :=
  match v with
  | Valid => Model.isValid d
  | Invalid => negb (Model.isValid d)
  | AnyValidity => true
  end.

(** [inhabits x t]: the value [x] has type [t].  [typeof NaN] is the type
    of the global [NaN], which is [number]: the type checker admits every
    number there. *)
Fixpoint inhabits (x : value) (t : type) : bool :=
  match t with
  | string_t => match x with VString _ => true | _ => false end
  | number_t | typeof_NaN => match x with VNumber _ => true | _ => false end
  | boolean_t => match x with VBoolean _ => true | _ => false end
  | null_t => match x with VNull => true | _ => false end
  | true_t => match x with VBoolean b => b | _ => false end
  | false_t => match x with VBoolean b => negb b | _ => false end
  | literal s => match x with VString s' => String.eqb s s' | _ => false end
  | DurationObjectUnits_t => match x with VUnits _ => true | _ => false end
  | Duration_t v => match x with VDuration d => hasValidity d v | _ => false end
  | union a b => inhabits x a || inhabits x b
  end.

Definition ofOption (o : option string) : value :=
  match o with
  | Some s => VString s
  | None => VNull
  end.

End Conformance.

(** ** Calls through the declarations

    The type of a call of a Duration member on a receiver, as the type
    checker computes it from the declared result types: on [Duration<v>]
    the member's result type at [v]; on a union of Durations, the union of
    the results.  A receiver that is not a Duration has none of the members
    of [class Duration]. *)

Module Calls.

Import Signature.

Fixpoint callOn (t : type) (m : member) : option type :=
  match t with
  | Duration_t v => Some (returns m v)
  | union a b =>
      match callOn a m, callOn b m with
      | Some a', Some b' => Some (union a' b')
      | _, _ => None
      end
  | _ => None
  end.

(** [d.m1(...).m2(...)...]: the members of [ms] called one on the result
    of the other, from a receiver of type [t]. *)
Fixpoint chain (ms : list member) (t : type) : option type :=
  match ms with
  | [] => Some t
  | m :: rest =>
      match callOn t m with
      | Some t' => chain rest t'
      | None => None
      end
  end.

(** [durations_only t]: every value of type [t] is a Duration. *)
Fixpoint durations_only (t : type) : bool :=
  match t with
  | Duration_t _ => true
  | union a b => durations_only a && durations_only b
  | _ => false
  end.

(** The members whose declared result admits [null] on a valid Duration,
    and on an invalid one. *)
Definition null_when_valid : list member :=
  [invalidReason; invalidExplanation].

Definition null_when_invalid : list member :=
  [locale; numberingSystem; toISO; toISOTime; toJSON; toString;
   invalidExplanation].

(** The members whose declared results on a valid and on an invalid
    Duration have a value in common. *)
Definition validity_blind : list member :=
  [toFormat; toHuman; toObject; toMillis; valueOf; get; as_;
   years; quarters; months; weeks; days; hours; minutes; seconds;
   milliseconds; invalidExplanation; equals].

End Calls.

(** ** Quantities as numbers

    The entries of [DurationObjectUnits] and the results of the numeric
    accessors are typed [number]: an IEEE 754 binary64 value, with its
    rounding, its infinities and its NaN.  This part models the Duration
    with such quantities, for what is computed with them: the numeric
    accessors and [plus]/[minus]. *)

Module Numeric.

Import Floats.

Definition number : Type := float.

(** The global [NaN]. *)
Definition NaN : number := nan.

(** [interface DurationObjectUnits], entries as declared:
    [number | undefined]. *)
Record DurationObjectUnits : Type := mkUnits {
  years : option number;
  quarters : option number;
  months : option number;
  weeks : option number;
  days : option number;
  hours : option number;
  minutes : option number;
  seconds : option number;
  milliseconds : option number
}.

Definition noUnits : DurationObjectUnits :=
  mkUnits None None None None None None None None None.

(** [o[u]] *)
Definition lookup (o : DurationObjectUnits) (u : Model.unit) : option number :=
  match u with
  | Model.Years => years o
  | Model.Quarters => quarters o
  | Model.Months => months o
  | Model.Weeks => weeks o
  | Model.Days => days o
  | Model.Hours => hours o
  | Model.Minutes => minutes o
  | Model.Seconds => seconds o
  | Model.Milliseconds => milliseconds o
  end.

(** The object with entry [f u] at every unit [u]. *)
Definition tabulate (f : Model.unit -> option number) : DurationObjectUnits :=
  mkUnits (f Model.Years) (f Model.Quarters) (f Model.Months) (f Model.Weeks)
    (f Model.Days) (f Model.Hours) (f Model.Minutes) (f Model.Seconds)
    (f Model.Milliseconds).

(** The stored quantity at a unit: an absent entry counts as zero. *)
Definition quantity (o : DurationObjectUnits) (u : Model.unit) : number :=
  match lookup o u with
  | Some x => x
  | None => 0%float
  end.

Definition unit_eqb (a b : Model.unit) : bool :=
  match a, b with
  | Model.Years, Model.Years | Model.Quarters, Model.Quarters
  | Model.Months, Model.Months | Model.Weeks, Model.Weeks
  | Model.Days, Model.Days | Model.Hours, Model.Hours
  | Model.Minutes, Model.Minutes | Model.Seconds, Model.Seconds
  | Model.Milliseconds, Model.Milliseconds => true
  | _, _ => false
  end.

(** [interface DurationLikeObject]: the properties of an object literal,
    in order. *)
Definition DurationLikeObject : Type := list (Model.DurationUnit * number).

(** The entry an object literal gives a unit: the last property whose key,
    plural or singular, names it. *)
Definition entry (obj : DurationLikeObject) (u : Model.unit) : option number :=
  fold_left
    (fun acc kv =>
       if unit_eqb (Model.normalizeUnit (fst kv)) u then Some (snd kv)
       else acc)
    obj None.

Definition normalizeObject (obj : DurationLikeObject) : DurationObjectUnits :=
  tabulate (entry obj).

(** Modelled from the spec: the state of a Duration, as in [Model], with
    quantities that are numbers. *)
Record Duration : Type := mkDuration {
  values : DurationObjectUnits;
  config : Model.Config;
  invalidity : option Model.Invalid
}.

(** Modelled from the spec: [Duration.invalid(reason, explanation)]. *)
Definition invalid (why : string) (explain : option string) : Duration :=
  mkDuration noUnits (Model.configOf Model.DurationOptions.none)
    (Some (Model.mkInvalid why explain)).

(** Modelled from the spec: [Duration.fromObject(obj, opts)], declared to
    return a [Duration<Valid>]. *)
Definition fromObject (obj : DurationLikeObject)
    (opts : Model.DurationOptions.t) : Duration :=
  mkDuration (normalizeObject obj) (Model.configOf opts) None.

Definition isValid (d : Duration) : bool :=
  match invalidity d with
  | None => true
  | Some _ => false
  end.

Definition invalidReason (d : Duration) : option string :=
  option_map Model.reason (invalidity d).

(** The class parameter at which a Duration value is typed. *)
Definition validity (d : Duration) : Signature.IsValid :=
  if isValid d then Signature.Valid else Signature.Invalid.

(** The quantity a Duration stores at a unit. *)
Definition stored (d : Duration) (u : Model.unit) : number :=
  quantity (values d) u.

(** Modelled from the spec: [get(unit)], declared
    [IfValid<number, typeof NaN, IsValid>]: "when invalid, all unit
    accessors return a not-a-number sentinel". *)
Definition get (d : Duration) (k : Model.DurationUnit) : number :=
  if isValid d then stored d (Model.normalizeUnit k) else NaN.

(** Same-named entries combined by [f]; a unit absent from both objects
    stays absent. *)
Definition combine (f : number -> number -> number)
    (a b : DurationObjectUnits) : DurationObjectUnits :=
  tabulate
    (fun u => match lookup a u, lookup b u with
              | None, None => None
              | _, _ => Some (f (quantity a u) (quantity b u))
              end).

(** Modelled from the spec: "plus/minus combine two durations by
    summing/subtracting same-named unit quantities (no cross-unit
    carrying)", the sum and the difference being those of [number]; the
    result keeps the receiver's configuration.  The declared result type
    [this] makes the result as valid as the receiver: "any operation on an
    already-invalid duration returns a new invalid duration (reason
    propagated, not re-derived)". *)
Definition arith (f : number -> number -> number) (this other : Duration)
  : Duration :=
  match invalidity this with
  | Some i => invalid (Model.reason i) (Model.explanation i)
  | None =>
      mkDuration (combine f (values this) (values other)) (config this) None
  end.

Definition plus (this other : Duration) : Duration :=
  arith PrimFloat.add this other.

Definition minus (this other : Duration) : Duration :=
  arith PrimFloat.sub this other.

(** [type ToISOFormat] *)
Inductive ToISOFormat : Type := basic | extended.

(** [interface ToISOTimeDurationOptions] *)
Record ToISOTimeDurationOptions : Type := mkToISOTimeOptions {
  includePrefix : option bool;
  suppressMilliseconds : option bool;
  suppressSeconds : option bool;
  format : option ToISOFormat
}.

Inductive ListStyle : Type := long | short | narrow.

(** [interface ToHumanDurationOptions], without the options it inherits
    from [Intl.NumberFormatOptions]. *)
Record ToHumanDurationOptions : Type := mkToHumanOptions {
  listStyle : option ListStyle;
  showZeros : option bool
}.

Inductive SignMode : Type := negative | all | negativeLargestOnly.

(** [interface DurationFormatOptions] *)
Record DurationFormatOptions : Type := mkFormatOptions {
  floor : option bool;
  signMode : option SignMode
}.

(** The accessors of the class.  What they compute on a valid Duration
    (the conversion between units, the renderings) is the library's and
    not in the repository: it is a parameter.  On an invalid Duration each
    returns what its declared type leaves it: [NaN] for
    [IfValid<number, typeof NaN, IsValid>], [null] for
    [IfValid<string, null, IsValid>], the string "Invalid Duration" for
    [toFormat]; [toHuman] is declared [string] for every Duration. *)
Module Accessors.

Section Absent.

Variable convert :
  Model.ConversionAccuracy -> DurationObjectUnits -> Model.unit -> number.
Variable renderFormat : Duration -> string -> DurationFormatOptions -> string.
Variable renderHuman : Duration -> ToHumanDurationOptions -> string.
Variable renderISO : Duration -> string.
Variable renderISOTime : Duration -> ToISOTimeDurationOptions -> string.

Definition years (d : Duration) : number := get d (Model.Plural Model.Years).

Definition quarters (d : Duration) : number :=
  get d (Model.Plural Model.Quarters).

Definition months (d : Duration) : number :=
  get d (Model.Plural Model.Months).

Definition weeks (d : Duration) : number := get d (Model.Plural Model.Weeks).

Definition days (d : Duration) : number := get d (Model.Plural Model.Days).

Definition hours (d : Duration) : number := get d (Model.Plural Model.Hours).

Definition minutes (d : Duration) : number :=
  get d (Model.Plural Model.Minutes).

Definition seconds (d : Duration) : number :=
  get d (Model.Plural Model.Seconds).

Definition milliseconds (d : Duration) : number :=
  get d (Model.Plural Model.Milliseconds).

(** [as(unit)]: "the length of the duration in the specified unit". *)
Definition as_ (d : Duration) (k : Model.DurationUnit) : number :=
  if isValid d
  then convert (Model.conf_conversionAccuracy (config d)) (values d)
         (Model.normalizeUnit k)
  else NaN.

(** [toMillis()]: "a millisecond value of this Duration". *)
Definition toMillis (d : Duration) : number :=
  as_ d (Model.Plural Model.Milliseconds).

(** [valueOf()]: "alias of toMillis". *)
Definition valueOf (d : Duration) : number := toMillis d.

Definition toFormat (d : Duration) (fmt : string)
    (opts : DurationFormatOptions) : Conformance.value :=
  if isValid d then Conformance.VString (renderFormat d fmt opts)
  else Conformance.VString "Invalid Duration".

Definition toHuman (d : Duration) (opts : ToHumanDurationOptions)
  : Conformance.value :=
  Conformance.VString (renderHuman d opts).

Definition toISO (d : Duration) : Conformance.value :=
  if isValid d then Conformance.VString (renderISO d) else Conformance.VNull.

Definition toISOTime (d : Duration) (opts : ToISOTimeDurationOptions)
  : Conformance.value :=
  if isValid d then Conformance.VString (renderISOTime d opts)
  else Conformance.VNull.

(** [toJSON()] and [toString()]: "an ISO 8601 representation of this
    Duration". *)
Definition toJSON (d : Duration) : Conformance.value := toISO d.

Definition toString (d : Duration) : Conformance.value := toISO d.

End Absent.

End Accessors.

(** [admits_number t]: a number is a value of type [t]. *)
Fixpoint admits_number (t : Signature.type) : bool :=
  match t with
  | Signature.number_t | Signature.typeof_NaN => true
  | Signature.union a b => admits_number a || admits_number b
  | _ => false
  end.

End Numeric.

(** ** Parsing factories

    [fromISO] and [fromISOTime] read a string.  Which strings the library
    accepts is decided by its grammar, which is not in the repository: the
    grammar is a parameter of the model.  [CanBeInvalid] is the parameter of
    [DurationMaybeValid]: where it holds the declared result is
    [Duration<Valid> | Duration<Invalid>]. *)

Module Parsing.

(** What a call does: it returns a value or throws. *)
Inductive outcome (A : Type) : Type :=
  | Returned (a : A)
  | Thrown (error : string).

Arguments Returned {A} a.
Arguments Thrown {A} error.

(** A grammar: the unit mapping a well-formed string denotes, nothing for a
    malformed one. *)
Definition grammar : Type := string -> option Model.DurationLikeObject.

(** The invalid Duration of a parse failure: "parsing failures set a
    textual reason without parameters and an optional detailed explanation
    string". *)
Definition unparsable (text : string) : Model.Duration :=
  Model.invalid "unparsable"
    (Some ("the input can't be parsed as ISO 8601: " ++ text)).

(** Modelled from the spec: "construction ... by parsing an ISO-8601
    duration/time string; parse failure yields an invalid instance carrying
    a reason, never an exception".  Where invalid Durations are not enabled
    the declared result leaves no room for one, and the failure is an
    exception. *)
Definition fromParsed (CanBeInvalid : bool) (parse : grammar) (text : string)
    (opts : Model.DurationOptions.t) : outcome Model.Duration :=
  match parse text with
  | Some obj => Returned (Model.fromObject obj opts)
  | None =>
      if CanBeInvalid then Returned (unparsable text)
      else Thrown "Invalid Duration: unparsable"
  end.

(** [Duration.fromISO(text, opts)] *)
Definition fromISO (CanBeInvalid : bool) (parseISODuration : grammar)
    (text : string) (opts : Model.DurationOptions.t) : outcome Model.Duration :=
  fromParsed CanBeInvalid parseISODuration text opts.

(** [Duration.fromISOTime(text, opts)] *)
Definition fromISOTime (CanBeInvalid : bool) (parseISOTimeOnly : grammar)
    (text : string) (opts : Model.DurationOptions.t) : outcome Model.Duration :=
  fromParsed CanBeInvalid parseISOTimeOnly text opts.

(** *** Two grammars

    A grammar for each factory, enough for the strings of the doc comments:
    the designator form [PnYnMnWnDTnHnMnS] with whole quantities, and the
    time of day [hh:mm], [hh:mm:ss], [hh:mm:ss.SSS], with or without the
    colons and the prefix [T]. *)

Definition digit (c : ascii) : option N :=
  let n := N_of_ascii c in
  if N.leb 48 n && N.leb n 57 then Some (N.sub n 48) else None.

Definition quantityOf (n : N) : Q := inject_Z (Z.of_N n).

Inductive part : Type := DatePart | TimePart.

(** The unit a designator letter stands for, with its place in the order
    of its part. *)
Definition designator (p : part) (c : ascii) : option (nat * Model.unit) :=
  match p with
  | DatePart =>
      if Ascii.eqb c "Y" then Some (1%nat, Model.Years)
      else if Ascii.eqb c "M" then Some (2%nat, Model.Months)
      else if Ascii.eqb c "W" then Some (3%nat, Model.Weeks)
      else if Ascii.eqb c "D" then Some (4%nat, Model.Days)
      else None
  | TimePart =>
      if Ascii.eqb c "H" then Some (1%nat, Model.Hours)
      else if Ascii.eqb c "M" then Some (2%nat, Model.Minutes)
      else if Ascii.eqb c "S" then Some (3%nat, Model.Seconds)
      else None
  end.

(** The fields after the [P]: [placed] is the place of the last designator
    read in the current part, [cur] the digits read since. *)
Fixpoint fields (s : string) (p : part) (placed : nat) (cur : option N)
    (acc : Model.DurationLikeObject) : option Model.DurationLikeObject :=
  match s with
  | EmptyString =>
      match cur, acc with
      | None, _ :: _ => Some acc
      | _, _ => None
      end
  | String c rest =>
      match digit c with
      | Some d =>
          let n := match cur with Some n => n | None => 0%N end in
          fields rest p placed (Some (N.add (N.mul 10 n) d)) acc
      | None =>
          if Ascii.eqb c "T" then
            match cur, p with
            | None, DatePart => fields rest TimePart 0%nat None acc
            | _, _ => None
            end
          else
            match cur, designator p c with
            | Some n, Some (place, u) =>
                if Nat.ltb placed place
                then fields rest p place None
                       (acc ++ [(Model.Plural u, quantityOf n)])%list
                else None
            | _, _ => None
            end
      end
  end.

Definition parseISODuration : grammar :=
  fun text =>
    match text with
    | String c rest =>
        if Ascii.eqb c "P" then fields rest DatePart 0%nat None [] else None
    | EmptyString => None
    end.

Definition number2 (a b : ascii) : option N :=
  match digit a, digit b with
  | Some x, Some y => Some (N.add (N.mul 10 x) y)
  | _, _ => None
  end.

Definition number3 (a b c : ascii) : option N :=
  match digit a, digit b, digit c with
  | Some x, Some y, Some z =>
      Some (N.add (N.add (N.mul 100 x) (N.mul 10 y)) z)
  | _, _, _ => None
  end.

Definition clock (h m : option N) (s : option N) (ms : option (option N))
  : option Model.DurationLikeObject :=
  match h, m, s, ms with
  | Some h, Some m, Some s, None =>
      Some [(Model.Plural Model.Hours, quantityOf h);
            (Model.Plural Model.Minutes, quantityOf m);
            (Model.Plural Model.Seconds, quantityOf s)]
  | Some h, Some m, Some s, Some (Some ms) =>
      Some [(Model.Plural Model.Hours, quantityOf h);
            (Model.Plural Model.Minutes, quantityOf m);
            (Model.Plural Model.Seconds, quantityOf s);
            (Model.Plural Model.Milliseconds, quantityOf ms)]
  | _, _, _, _ => None
  end.

Definition timeFields (cs : list ascii) : option Model.DurationLikeObject :=
  match cs with
  | [h1; h2; m1; m2] =>
      clock (number2 h1 h2) (number2 m1 m2) (Some 0%N) None
  | [h1; h2; c1; m1; m2] =>
      if Ascii.eqb c1 ":"
      then clock (number2 h1 h2) (number2 m1 m2) (Some 0%N) None
      else None
  | [h1; h2; m1; m2; s1; s2] =>
      clock (number2 h1 h2) (number2 m1 m2) (number2 s1 s2) None
  | [h1; h2; c1; m1; m2; c2; s1; s2] =>
      if Ascii.eqb c1 ":" && Ascii.eqb c2 ":"
      then clock (number2 h1 h2) (number2 m1 m2) (number2 s1 s2) None
      else None
  | [h1; h2; m1; m2; s1; s2; dot; f1; f2; f3] =>
      if Ascii.eqb dot "."
      then clock (number2 h1 h2) (number2 m1 m2) (number2 s1 s2)
             (Some (number3 f1 f2 f3))
      else None
  | [h1; h2; c1; m1; m2; c2; s1; s2; dot; f1; f2; f3] =>
      if Ascii.eqb c1 ":" && Ascii.eqb c2 ":" && Ascii.eqb dot "."
      then clock (number2 h1 h2) (number2 m1 m2) (number2 s1 s2)
             (Some (number3 f1 f2 f3))
      else None
  | _ => None
  end.

Definition parseISOTimeOnly : grammar :=
  fun text =>
    match text with
    | String c rest =>
        if Ascii.eqb c "T" then timeFields (list_ascii_of_string rest)
        else timeFields (list_ascii_of_string text)
    | EmptyString => None
    end.

End Parsing.

(** ** Part IV. Properties of the declarations *)

Section Declared.

Import Signature.

(** [IfValid] at the two literal validities. *)
Lemma IfValid_Valid (A B : type) : IfValid A B Valid = A.
Proof. reflexivity. Qed.

Lemma IfValid_Invalid (A B : type) : IfValid A B Invalid = B.
Proof. reflexivity. Qed.

(** Every transforming member is declared to return [this]: the result has
    the receiver's validity. *)
Lemma transforming_returns_this (v : IsValid) :
  Forall (fun m => returns m v = Duration_t v) transforming.
Proof. unfold transforming. repeat constructor. Qed.

(** A [Duration<Invalid>] reports [isValid: false], a reason that is a
    string and an explanation that is a string or [null]. *)
Lemma invalid_state_types :
  returns isValid Invalid = false_t /\
  returns invalidReason Invalid = string_t /\
  returns invalidExplanation Invalid = union string_t null_t.
Proof. repeat split. Qed.


(** The declared results on an invalid Duration: [typeof NaN] for every
    unit accessor, [null] for toISO, toISOTime, toJSON and toString, the
    string "Invalid Duration" for toFormat and [string] for toHuman,
    neither of which admits [null]. *)
Lemma invalid_accessor_types :
  Forall (fun m => returns m Invalid = typeof_NaN) unit_accessors /\
  Forall (fun m => returns m Invalid = null_t)
    [toISO; toISOTime; toJSON; toString] /\
  returns toFormat Invalid = literal "Invalid Duration" /\
  returns toHuman Invalid = string_t /\
  nullable (returns toFormat Invalid) = false /\
  nullable (returns toHuman Invalid) = false.
Proof.
  unfold unit_accessors.
  repeat split; repeat constructor.
Qed.


(** The declared results of the factories: [fromISO] and [fromISOTime]
    return [DurationMaybeValid], a Duration that may be invalid where
    [CanBeInvalid] holds, and an invalid Duration is a value whose
    [isValid] is [false], whose [invalidReason] is a string, never [null],
    and whose [invalidExplanation] is a string or [null]; [fromMillis] and
    [fromObject] return valid Durations only, whose [isValid] is [true] and
    whose [invalidReason] is [null]. *)
Lemma factory_result_types
    (CanBeInvalid : bool) (DefaultValidity : IsValid) :
  Forall (fun f => creates CanBeInvalid DefaultValidity f
                   = DurationMaybeValid CanBeInvalid DefaultValidity)
    [fromISO; fromISOTime] /\
  admits (DurationMaybeValid true DefaultValidity) Invalid = true /\
  returns isValid Invalid = false_t /\
  returns invalidReason Invalid = string_t /\
  nullable (returns invalidReason Invalid) = false /\
  returns invalidExplanation Invalid = union string_t null_t /\
  Forall (fun f => creates CanBeInvalid DefaultValidity f = Duration_t Valid /\
                   admits (creates CanBeInvalid DefaultValidity f) Invalid
                   = false)
    [fromMillis; fromObject] /\
  returns isValid Valid = true_t /\
  returns invalidReason Valid = null_t.
Proof.
  repeat split; repeat constructor.
Qed.

End Declared.

Section DeclaredValues.

Import Signature Conformance.

(** The only value of the literal type [false]. *)
Lemma inhabits_false_t (x : value) :
  inhabits x false_t = true -> x = VBoolean false.
Proof.
  destruct x as [n | s | | b | o | d]; cbn; try discriminate.
  destruct b; cbn; [discriminate | reflexivity].
Qed.

(** C10: on an invalid Duration [equals] is declared to return the literal
    type [false], whatever Duration it is given (the receiver itself
    included): every value it may return is [false]. *)
Theorem equals_invalid_receiver (x : value) :
  inhabits x (returns equals Invalid) = true -> x = VBoolean false.
Proof.
  unfold returns. rewrite IfValid_Invalid. apply inhabits_false_t.
Qed.

Lemma equals_invalid_receiver_witness :
  inhabits (VBoolean false) (returns equals Invalid) = true /\
  VBoolean false = VBoolean false.
Proof.
  split; [reflexivity |].
  apply (equals_invalid_receiver (VBoolean false)). reflexivity.
Defined.

End DeclaredValues.

(** ** Part V. Properties of the model *)

Section UnitObjects.

Import Model.

Lemma lookup_tabulate (f : unit -> option Q) (u : unit) :
  lookup (tabulate f) u = f u.
Proof. destruct u; reflexivity. Qed.

Lemma tabulate_lookup (o : DurationObjectUnits) : tabulate (lookup o) = o.
Proof. destruct o; reflexivity. Qed.

Lemma lookup_update_eq (o : DurationObjectUnits) (u : unit) (x : option Q) :
  lookup (update o u x) u = x.
Proof. destruct u; reflexivity. Qed.

Lemma lookup_update_ne (o : DurationObjectUnits) (u w : unit) (x : option Q) :
  u <> w -> lookup (update o u x) w = lookup o w.
Proof.
  intros Hne. destruct u, w; try reflexivity; contradiction Hne; reflexivity.
Qed.

(** Two unit objects with the same entries are the same object. *)
Lemma units_ext (a b : DurationObjectUnits) :
  (forall u, lookup a u = lookup b u) -> a = b.
Proof.
  intros H. rewrite <- (tabulate_lookup a), <- (tabulate_lookup b).
  unfold tabulate. now rewrite !H.
Qed.

Lemma In_orderedUnits (u : unit) : In u orderedUnits.
Proof. destruct u; cbn; tauto. Qed.

Lemma forallb_orderedUnits (p : unit -> bool) :
  forallb p orderedUnits = true <-> forall u, p u = true.
Proof.
  rewrite forallb_forall. split.
  - intros H u. apply H, In_orderedUnits.
  - intros H u _. apply H.
Qed.


End UnitObjects.

Section DurationModel.

Import Model.

Local Open Scope Q_scope.

(** The examples of the declaration file's doc comments. *)
Example get_examples :
  let d := fromObject [(Plural Years, 2); (Plural Days, 3)] DurationOptions.none in
  get d (Plural Years) = Num 2 /\
  get d (Plural Months) = Num 0 /\
  get d (Plural Days) = Num 3.
Proof. repeat split. Qed.

Example toObject_example :
  toObject (fromObject [(Plural Years, 1); (Plural Days, 6); (Plural Seconds, 2)]
              DurationOptions.none)
  = mkUnits (Some 1) None None None (Some 6) None None (Some 2) None.
Proof. reflexivity. Qed.

Example negate_example :
  toObject (negate (fromObject [(Plural Hours, 1); (Plural Seconds, 30)]
                      DurationOptions.none))
  = mkUnits None None None None None (Some (-1)) None (Some (-30)) None.
Proof. reflexivity. Qed.

Example singular_keys :
  fromObject [(Singular Hours, 1); (Plural Hours, 8)] DurationOptions.none
  = fromObject [(Plural Hours, 8)] DurationOptions.none.
Proof. reflexivity. Qed.


Lemma invalid_isValid (why : string) (explain : option string) :
  isValid (invalid why explain) = false.
Proof. reflexivity. Qed.

Lemma isValid_invalidity (d : Duration) :
  isValid d = true -> invalidity d = None.
Proof.
  unfold isValid. destruct (invalidity d); [discriminate | reflexivity].
Qed.


(** [equals] on valid Durations compares every unit. *)
Lemma equals_valid (a b : Duration) :
  isValid a = true -> isValid b = true ->
  equals a b
  = forallb (fun u => Qeq_bool (stored a u) (stored b u)) orderedUnits.
Proof. intros Ha Hb. unfold equals. now rewrite Ha, Hb. Qed.

(** The model's [equals] is [false] on an invalid receiver, as declared. *)
Lemma equals_invalid (a b : Duration) : isValid a = false -> equals a b = false.
Proof. intros Ha. unfold equals. now rewrite Ha. Qed.

Lemma equals_refl (d : Duration) : isValid d = true -> equals d d = true.
Proof.
  intros H. rewrite (equals_valid d d H H). apply forallb_orderedUnits.
  intros u. apply Qeq_bool_iff. reflexivity.
Qed.

Lemma stored_negate (d : Duration) (u : unit) :
  isValid d = true -> stored (negate d) u == - stored d u.
Proof.
  intros H. unfold negate, stored, quantity.
  rewrite (isValid_invalidity d H). cbn [values].
  rewrite lookup_tabulate. destruct (lookup (values d) u); reflexivity.
Qed.

Lemma negate_isValid (d : Duration) : isValid (negate d) = isValid d.
Proof. unfold negate, isValid. destruct (invalidity d); reflexivity. Qed.

(** "negate() applied twice returns a duration equal to the original." *)
Lemma negate_negate_equals (d : Duration) :
  isValid d = true -> equals (negate (negate d)) d = true.
Proof.
  intros H.
  assert (H1 : isValid (negate d) = true) by now rewrite negate_isValid.
  assert (H2 : isValid (negate (negate d)) = true) by now rewrite negate_isValid.
  rewrite (equals_valid _ d H2 H). apply forallb_orderedUnits. intros u.
  apply Qeq_bool_iff.
  rewrite (stored_negate (negate d) u H1), (stored_negate d u H).
  apply Qopp_involutive.
Qed.






End DurationModel.

(** ** Part VI. The model respects the declarations

    Each modelled member returns a value of the type the declaration file
    gives it, at the validity of the receiver. *)

Section ModelConforms.

Import Signature Model Conformance.

Ltac by_validity d :=
  unfold validity, hasValidity, Model.isValid, Model.invalidReason,
    Model.invalidExplanation, Model.get, Model.equals, Model.isValid;
  destruct (invalidity d) as [[why explain] |]; cbn.

Lemma isValid_conforms (d : Duration) :
  inhabits (VBoolean (Model.isValid d))
    (returns Signature.isValid (validity d)) = true.
Proof. by_validity d; reflexivity. Qed.

Lemma invalidReason_conforms (d : Duration) :
  inhabits (ofOption (Model.invalidReason d))
    (returns Signature.invalidReason (validity d)) = true.
Proof. by_validity d; reflexivity. Qed.

Lemma invalidExplanation_conforms (d : Duration) :
  inhabits (ofOption (Model.invalidExplanation d))
    (returns Signature.invalidExplanation (validity d)) = true.
Proof. by_validity d; [destruct explain |]; reflexivity. Qed.

Lemma get_conforms (d : Duration) (k : DurationUnit) :
  inhabits (VNumber (Model.get d k))
    (returns Signature.get (validity d)) = true.
Proof. by_validity d; reflexivity. Qed.

(** On an invalid Duration the modelled accessor returns the sentinel the
    declaration names. *)
Lemma get_invalid (d : Duration) (k : DurationUnit) :
  Model.isValid d = false -> Model.get d k = NaN.
Proof. intros H. unfold Model.get. now rewrite H. Qed.

Lemma toObject_conforms (d : Duration) :
  inhabits (VUnits (Model.toObject d))
    (returns Signature.toObject (validity d)) = true.
Proof. reflexivity. Qed.

Lemma negate_conforms (d : Duration) :
  inhabits (VDuration (Model.negate d))
    (returns Signature.negate (validity d)) = true.
Proof.
  unfold Model.negate, validity, Model.isValid.
  destruct (invalidity d) as [i |]; reflexivity.
Qed.

Lemma equals_conforms (d other : Duration) :
  inhabits (VBoolean (Model.equals d other))
    (returns Signature.equals (validity d)) = true.
Proof. by_validity d; reflexivity. Qed.

Lemma factories_conform (c : bool) (dv : IsValid)
    (obj : DurationLikeObject) (count : Q) (opts : DurationOptions.t)
    (why : string) (explain : option string) :
  inhabits (VDuration (Model.fromObject obj opts))
    (creates c dv Signature.fromObject) = true /\
  inhabits (VDuration (Model.fromMillis count opts))
    (creates c dv Signature.fromMillis) = true /\
  inhabits (VDuration (Model.invalid why explain))
    (creates c dv Signature.invalid) = true.
Proof. repeat split. Qed.

End ModelConforms.

(** ** Part VII. Calls, chains and what a result tells of validity *)

Section DeclaredCalls.

Import Signature Calls.

Lemma In_transforming_returns (m : member) (v : IsValid) :
  In m transforming -> returns m v = Duration_t v.
Proof.
  intros H. pose proof (transforming_returns_this v) as F.
  rewrite Forall_forall in F. apply F, H.
Qed.

Lemma callOn_transforming (t : type) (m : member) :
  durations_only t = true -> In m transforming -> callOn t m = Some t.
Proof.
  intros Ht Hm.
  induction t as [ | | | | | | | s | | v | a IHa b IHb]; cbn in Ht |- *;
    try discriminate Ht.
  - now rewrite (In_transforming_returns m v Hm).
  - apply andb_prop in Ht. destruct Ht as [Ha Hb].
    now rewrite (IHa Ha), (IHb Hb).
Qed.

(** X1: a chain of transforming members keeps the receiver's type.  Called
    one after the other on a Duration, or on a union of Durations such as
    the result of [fromISO], plus, minus, set, reconfigure, mapUnits,
    shiftTo, shiftToAll, normalize, rescale, negate and removeZeros give
    back the type they started from: a Duration typed invalid stays typed
    invalid, one typed valid stays typed valid. *)
Theorem transforming_chain_keeps_type (ms : list member) (t : type) :
  durations_only t = true ->
  Forall (fun m => In m transforming) ms ->
  chain ms t = Some t.
Proof.
  intros Ht Hms. induction Hms as [ | m rest Hm _ IH]; cbn.
  - reflexivity.
  - now rewrite (callOn_transforming t m Ht Hm).
Qed.

Lemma transforming_chain_keeps_type_witness :
  let t := DurationMaybeValid true AnyValidity in
  let ms := [plus; negate; shiftTo; removeZeros] in
  durations_only t = true /\
  Forall (fun m => In m transforming) ms /\
  chain ms t = Some t.
Proof.
  cbv zeta.
  assert (Hms : Forall (fun m => In m transforming)
                  [plus; negate; shiftTo; removeZeros])
    by (repeat constructor; cbn; tauto).
  split; [reflexivity | split; [exact Hms |]].
  apply (transforming_chain_keeps_type [plus; negate; shiftTo; removeZeros]
           (DurationMaybeValid true AnyValidity) eq_refl Hms).
Defined.

(** X2: the eleven transforming members are exactly the members that
    return a Duration: at every validity, the declared result of a member
    is a Duration if and only if the member is one of plus, minus, set,
    reconfigure, mapUnits, shiftTo, shiftToAll, normalize, rescale, negate
    and removeZeros.  The result of any other member is not a Duration and
    has none of the members of the class. *)
Theorem returns_duration_iff_transforming (m : member) (v : IsValid) :
  durations_only (returns m v) = true <-> In m transforming.
Proof.
  split.
  - destruct m, v; cbn; intros H; try discriminate H; tauto.
  - intros H. now rewrite (In_transforming_returns m v H).
Qed.

(** X6: no factory returns [null] in place of a Duration.  Whatever
    "./_util" makes of [CanBeInvalid] and [DefaultValidity], the declared
    result of fromMillis, fromObject, fromDurationLike, fromISO,
    fromISOTime and invalid is a Duration or a union of Durations: it does
    not admit [null], and every member of the class can be called on it
    directly. *)
Theorem factories_return_durations (CanBeInvalid : bool)
    (DefaultValidity : IsValid) (f : factory) :
  durations_only (creates CanBeInvalid DefaultValidity f) = true /\
  nullable (creates CanBeInvalid DefaultValidity f) = false /\
  (forall m : member,
      exists t : type,
        callOn (creates CanBeInvalid DefaultValidity f) m = Some t).
Proof.
  repeat split; destruct f, CanBeInvalid; cbn; try reflexivity;
    intros m; eexists; reflexivity.
Qed.

End DeclaredCalls.

Section ResultsAndValidity.

Import Signature Calls Conformance.

(** [nullable] is the syntactic reading of "[null] has this type". *)
Lemma inhabits_VNull (t : type) : inhabits VNull t = nullable t.
Proof.
  induction t as [ | | | | | | | s | | v | a IHa b IHb]; cbn; try reflexivity.
  now rewrite IHa, IHb.
Qed.

(** No Duration is typed valid and invalid at once. *)
Lemma hasValidity_exclusive (d : Model.Duration) :
  hasValidity d Valid = true -> hasValidity d Invalid = true -> False.
Proof.
  cbn. destruct (Model.isValid d); cbn; intros H1 H2; discriminate.
Qed.

(** X3: where validity is known statically, [isValid] and [invalidReason]
    agree: whatever the two getters return on one Duration typed
    [Duration<Valid>] or [Duration<Invalid>], [isValid] is [true] exactly
    when [invalidReason] is [null]; and when [isValid] is [true] the
    explanation is [null] as well. *)
Theorem isValid_iff_no_reason (v : IsValid) (x y z : value) :
  v <> AnyValidity ->
  inhabits x (returns isValid v) = true ->
  inhabits y (returns invalidReason v) = true ->
  inhabits z (returns invalidExplanation v) = true ->
  (x = VBoolean true <-> y = VNull) /\
  (x = VBoolean true -> z = VNull).
Proof.
  intros Hv Hx Hy Hz. destruct v; [ | | contradiction Hv; reflexivity ];
    cbn in Hx, Hy, Hz.
  - destruct x as [ | | | [ | ] | | ]; try discriminate Hx.
    destruct y; try discriminate Hy. destruct z; try discriminate Hz.
    repeat split; reflexivity.
  - destruct x as [ | | | [ | ] | | ]; try discriminate Hx.
    destruct y; try discriminate Hy.
    split; [split |]; intros H; discriminate H.
Qed.

Lemma isValid_iff_no_reason_witness :
  Invalid <> AnyValidity /\
  inhabits (VBoolean false) (returns isValid Invalid) = true /\
  inhabits (VString "unparsable") (returns invalidReason Invalid) = true /\
  inhabits VNull (returns invalidExplanation Invalid) = true /\
  ((VBoolean false = VBoolean true <-> VString "unparsable" = VNull) /\
   (VBoolean false = VBoolean true -> VNull = VNull)).
Proof.
  assert (Hv : Invalid <> AnyValidity) by discriminate.
  split; [exact Hv |].
  split; [reflexivity | split; [reflexivity | split; [reflexivity |]]].
  apply (isValid_iff_no_reason Invalid (VBoolean false)
           (VString "unparsable") VNull Hv eq_refl eq_refl eq_refl).
Defined.

(** X4: which members may return [null].  On a valid Duration only
    invalidReason and invalidExplanation are declared with a type that
    admits [null]; on an invalid one only locale, numberingSystem, toISO,
    toISOTime, toJSON, toString and invalidExplanation are.  Every other
    member never returns [null]. *)
Theorem null_results (m : member) :
  (inhabits VNull (returns m Valid) = true <-> In m null_when_valid) /\
  (inhabits VNull (returns m Invalid) = true <-> In m null_when_invalid).
Proof.
  rewrite !inhabits_VNull.
  split; split; destruct m; cbn; intros H;
    try reflexivity; try discriminate H; try tauto;
    repeat (destruct H as [H | H]; try discriminate H); contradiction.
Qed.

(** X5: which results tell valid from invalid.  The declared results of a
    member on a valid and on an invalid Duration share a value exactly for
    toFormat, toHuman, toObject, the numeric accessors (toMillis, valueOf,
    get, as, years ... milliseconds), invalidExplanation and equals.  For
    every other member (locale, numberingSystem, toISO, toISOTime, toJSON,
    toString, isValid, invalidReason and the transforming members) no value
    can be returned both by a valid and by an invalid Duration. *)
Theorem results_shared_iff_validity_blind (m : member) :
  (exists x : value,
      inhabits x (returns m Valid) = true /\
      inhabits x (returns m Invalid) = true)
  <-> In m validity_blind.
Proof.
  split.
  - intros (x & HV & HI).
    destruct m; cbn in HV, HI |- *; try tauto;
      destruct x as [n | s | | b | o | d]; try discriminate;
      try (destruct b; discriminate);
      exfalso; apply (hasValidity_exclusive d HV HI).
  - intros H.
    destruct m; cbn in H;
      try (repeat (destruct H as [H | H]; try discriminate H); contradiction);
      clear H.
    + exists (VString "Invalid Duration"). split; reflexivity.
    + exists (VString ""). split; reflexivity.
    + exists (VUnits Model.noUnits). split; reflexivity.
    + exists (VNumber Model.NaN). split; reflexivity.
    + exists (VNumber Model.NaN). split; reflexivity.
    + exists (VNumber Model.NaN). split; reflexivity.
    + exists (VNumber Model.NaN). split; reflexivity.
    + exists (VNumber Model.NaN). split; reflexivity.
    + exists (VNumber Model.NaN). split; reflexivity.
    + exists (VNumber Model.NaN). split; reflexivity.
    + exists (VNumber Model.NaN). split; reflexivity.
    + exists (VNumber Model.NaN). split; reflexivity.
    + exists (VNumber Model.NaN). split; reflexivity.
    + exists (VNumber Model.NaN). split; reflexivity.
    + exists (VNumber Model.NaN). split; reflexivity.
    + exists (VNumber Model.NaN). split; reflexivity.
    + exists VNull. split; reflexivity.
    + exists (VBoolean false). split; reflexivity.
Qed.

End ResultsAndValidity.

(** ** Part VIII. Numbers: the accessors of an invalid Duration, plus and minus *)

Section NumericAccessors.

Import Signature Conformance Numeric.

Variable convert :
  Model.ConversionAccuracy -> DurationObjectUnits -> Model.unit -> number.
Variable renderFormat : Duration -> string -> DurationFormatOptions -> string.
Variable renderHuman : Duration -> ToHumanDurationOptions -> string.
Variable renderISO : Duration -> string.
Variable renderISOTime : Duration -> ToISOTimeDurationOptions -> string.

Lemma invalid_isValid_number (why : string) (explain : option string) :
  isValid (Numeric.invalid why explain) = false.
Proof. reflexivity. Qed.

(** The declared result of every numeric accessor admits a number, at
    every validity: whatever number the accessor returns has its declared
    type. *)
Lemma numeric_accessors_admit_numbers (v : IsValid) :
  Forall (fun m => admits_number (returns m v) = true)
    (Signature.valueOf :: unit_accessors).
Proof. unfold unit_accessors. destruct v; repeat constructor. Qed.

(** The renderings have their declared types, at the validity of the
    receiver. *)
Lemma renderings_conform (d : Duration) (fmt : string)
    (fopts : DurationFormatOptions) (hopts : ToHumanDurationOptions)
    (topts : ToISOTimeDurationOptions) :
  inhabits (Accessors.toFormat renderFormat d fmt fopts)
    (returns Signature.toFormat (validity d)) = true /\
  inhabits (Accessors.toHuman renderHuman d hopts)
    (returns Signature.toHuman (validity d)) = true /\
  inhabits (Accessors.toISO renderISO d)
    (returns Signature.toISO (validity d)) = true /\
  inhabits (Accessors.toISOTime renderISOTime d topts)
    (returns Signature.toISOTime (validity d)) = true /\
  inhabits (Accessors.toJSON renderISO d)
    (returns Signature.toJSON (validity d)) = true /\
  inhabits (Accessors.toString renderISO d)
    (returns Signature.toString (validity d)) = true.
Proof.
  unfold Accessors.toFormat, Accessors.toHuman, Accessors.toJSON,
    Accessors.toString, Accessors.toISO, Accessors.toISOTime, validity.
  destruct (isValid d); repeat split.
Qed.


End NumericAccessors.


Section NumericArithmetic.

Import Floats Numeric.

Lemma number_lookup_tabulate (f : Model.unit -> option number) (u : Model.unit) :
  lookup (tabulate f) u = f u.
Proof. destruct u; reflexivity. Qed.

Lemma number_quantity_combine (f : number -> number -> number)
    (a b : DurationObjectUnits) (u : Model.unit) :
  f 0%float 0%float = 0%float ->
  quantity (combine f a b) u = f (quantity a u) (quantity b u).
Proof.
  intros Hf. unfold combine, quantity. rewrite number_lookup_tabulate.
  destruct (lookup a u), (lookup b u); try reflexivity.
  symmetry. exact Hf.
Qed.

Lemma number_isValid_invalidity (d : Duration) :
  isValid d = true -> invalidity d = None.
Proof.
  unfold isValid. destruct (invalidity d); [discriminate | reflexivity].
Qed.

(** On an invalid receiver [plus] and [minus] return an invalid Duration
    with the receiver's reason. *)
Lemma number_arith_invalid (f : number -> number -> number) (a b : Duration) :
  isValid a = false ->
  isValid (arith f a b) = false /\
  invalidReason (arith f a b) = invalidReason a.
Proof.
  unfold arith, isValid, invalidReason.
  destruct (invalidity a); [split; reflexivity | discriminate].
Qed.

(** The result of [plus] and [minus] is typed [this]: as valid as the
    receiver. *)
Lemma number_arith_validity (f : number -> number -> number) (a b : Duration) :
  validity (arith f a b) = validity a.
Proof.
  unfold arith, validity, isValid.
  destruct (invalidity a); reflexivity.
Qed.

(** The sum of two numbers is the rounded one: a tenth of a second plus two
    tenths is not three tenths, and 2^53 milliseconds plus one is 2^53. *)
Example plus_rounds :
  let a := fromObject [(Model.Plural Model.Seconds, 0x1.999999999999ap-4%float);
                       (Model.Plural Model.Milliseconds, 9007199254740992%float)]
             Model.DurationOptions.none in
  let b := fromObject [(Model.Plural Model.Seconds, 0x1.999999999999ap-3%float);
                       (Model.Plural Model.Milliseconds, 1%float)]
             Model.DurationOptions.none in
  stored (plus a b) Model.Seconds = 0x1.3333333333334p-2%float /\
  PrimFloat.eqb (stored (plus a b) Model.Seconds) 0x1.3333333333333p-2%float
  = false /\
  stored (plus a b) Model.Milliseconds = 9007199254740992%float.
Proof. cbv zeta. repeat split. Qed.

(** C6: for every pair of valid Durations a and b and every unit name,
    a.plus(b) is a valid Duration whose quantity at that unit is the sum,
    as numbers add, of the quantities of a and b at that same unit, and
    a.minus(b) one whose quantity there is their difference: no other unit
    contributes, nothing is carried from one unit into another. *)
Theorem plus_minus_unitwise (a b : Duration) (u : Model.unit) :
  isValid a = true -> isValid b = true ->
  isValid (plus a b) = true /\
  stored (plus a b) u = PrimFloat.add (stored a u) (stored b u) /\
  isValid (minus a b) = true /\
  stored (minus a b) u = PrimFloat.sub (stored a u) (stored b u).
Proof.
  intros Ha Hb. unfold plus, minus, arith, stored.
  rewrite (number_isValid_invalidity a Ha). cbn [values isValid invalidity].
  repeat split; apply number_quantity_combine; reflexivity.
Qed.

(** One hour forty-five minutes plus ninety minutes is one hour and 135
    minutes, not three hours and a quarter. *)
Lemma plus_minus_unitwise_witness :
  let a := fromObject [(Model.Plural Model.Hours, 1%float);
                       (Model.Plural Model.Minutes, 45%float)]
             Model.DurationOptions.none in
  let b := fromObject [(Model.Plural Model.Minutes, 90%float)]
             Model.DurationOptions.none in
  isValid a = true /\ isValid b = true /\
  values (plus a b)
  = mkUnits None None None None None (Some 1%float) (Some 135%float) None None /\
  values (minus a b)
  = mkUnits None None None None None (Some 1%float) (Some (-45)%float) None None /\
  (isValid (plus a b) = true /\
   stored (plus a b) Model.Minutes
   = PrimFloat.add (stored a Model.Minutes) (stored b Model.Minutes) /\
   isValid (minus a b) = true /\
   stored (minus a b) Model.Minutes
   = PrimFloat.sub (stored a Model.Minutes) (stored b Model.Minutes)).
Proof.
  cbv zeta.
  split; [reflexivity | split; [reflexivity |]].
  split; [reflexivity | split; [reflexivity |]].
  apply (plus_minus_unitwise
           (fromObject [(Model.Plural Model.Hours, 1%float);
                        (Model.Plural Model.Minutes, 45%float)]
              Model.DurationOptions.none)
           (fromObject [(Model.Plural Model.Minutes, 90%float)]
              Model.DurationOptions.none)
           Model.Minutes); reflexivity.
Defined.

End NumericArithmetic.

(** ** Part IX. Parse failures *)

Section ParseFailures.

Import Signature Conformance Parsing.

(** The strings of the doc comments of [fromISO] and [fromISOTime]. *)
Example fromISO_examples :
  option_map Model.normalizeObject (parseISODuration "P3Y6M1W4DT12H30M5S")
  = Some (Model.mkUnits (Some 3) None (Some 6) (Some 1) (Some 4) (Some 12)
            (Some 30) (Some 5) None)%Q /\
  option_map Model.normalizeObject (parseISODuration "PT23H")
  = Some (Model.mkUnits None None None None None (Some 23) None None None)%Q /\
  option_map Model.normalizeObject (parseISODuration "P5Y3M")
  = Some (Model.mkUnits (Some 5) None (Some 3) None None None None None None)%Q.
Proof. repeat split. Qed.

Example fromISOTime_examples :
  option_map Model.normalizeObject (parseISOTimeOnly "11:22:33.444")
  = Some (Model.mkUnits None None None None None (Some 11) (Some 22)
            (Some 33) (Some 444))%Q /\
  Forall
    (fun text =>
       option_map Model.normalizeObject (parseISOTimeOnly text)
       = Some (Model.mkUnits None None None None None (Some 11) (Some 0)
                 (Some 0) None)%Q)
    ["11:00"; "T11:00"; "1100"; "T1100"].
Proof. split; [reflexivity | repeat constructor]. Qed.

(** A string the grammar accepts gives a valid Duration. *)
Lemma fromParsed_success (CanBeInvalid : bool) (parse : grammar)
    (text : string) (opts : Model.DurationOptions.t)
    (obj : Model.DurationLikeObject) :
  parse text = Some obj ->
  fromParsed CanBeInvalid parse text opts
  = Returned (Model.fromObject obj opts).
Proof. intros H. unfold fromParsed. now rewrite H. Qed.


(** It has the type [fromISO] and [fromISOTime] are declared to return
    where [CanBeInvalid] holds, and its getters have their declared
    types. *)
Lemma unparsable_conforms (text : string) (DefaultValidity : IsValid) :
  Forall
    (fun f => inhabits (VDuration (unparsable text))
                (creates true DefaultValidity f) = true)
    [Signature.fromISO; Signature.fromISOTime] /\
  inhabits (VBoolean (Model.isValid (unparsable text)))
    (returns Signature.isValid Invalid) = true /\
  inhabits (ofOption (Model.invalidReason (unparsable text)))
    (returns Signature.invalidReason Invalid) = true /\
  inhabits (ofOption (Model.invalidExplanation (unparsable text)))
    (returns Signature.invalidExplanation Invalid) = true.
Proof. repeat split; repeat constructor. Qed.

(** Where invalid Durations are not enabled, the failure is an exception. *)
Lemma fromParsed_throws (parse : grammar) (text : string)
    (opts : Model.DurationOptions.t) :
  parse text = None ->
  exists error : string, fromParsed false parse text opts = Thrown error.
Proof. intros H. unfold fromParsed. rewrite H. eexists. reflexivity. Qed.


End ParseFailures.

